(** * PILCO: belief propagation, rollout, policy optimisation and restarts

    A shallow embedding of [pilco/models/pilco.py] (class [PILCO]).

    Scalars of [float_type] are read as elements of an exact real field [R]
    (rounding is outside this development); tensors of static shape are
    MathComp matrices over [R]; the [tf.int32] loop counter is a [Z] with its
    wrap-around written out.  The Gaussian-process dynamics model, the
    controller, the reward and the scipy optimiser are collaborators of the
    class: they enter as the variables of the section below. *)

From Stdlib Require Import ZArith Lia String.
From HB Require Import structures.
From mathcomp Require Import boot order algebra.

Set Implicit Arguments.
Unset Strict Implicit.
Unset Printing Implicit Defensive.

Import GRing.Theory Num.Theory Order.Theory.
Local Open Scope ring_scope.

(** [%Z] is MathComp's [int] here; Stdlib's integers are written [%ZZ]. *)
Delimit Scope Z_scope with ZZ.

(** ** Generic pieces: the int32 counter, [tf.while_loop], errors *)

(** Two's-complement wrap-around of a [tf.int32] value. *)
Definition wrap_int32 (z : Z) : Z := ((z + 2 ^ 31) mod 2 ^ 32 - 2 ^ 31)%ZZ.

(** [tf.while_loop cond body loop_vars]: the body runs as long as [cond]
    holds.  [fuel] bounds the number of iterations; [while_loop_exits] below
    shows that the bound [predict] passes is never the reason the loop
    stops. *)
Fixpoint while_loop (V : Type) (fuel : nat) (cond : V -> bool) (body : V -> V)
    (loop_vars : V) : V :=
  if fuel is fuel'.+1 then
    if cond loop_vars then while_loop fuel' cond body (body loop_vars)
    else loop_vars
  else loop_vars.

(** Number of times the body of [while_loop] ran. *)
Fixpoint while_count (V : Type) (fuel : nat) (cond : V -> bool) (body : V -> V)
    (loop_vars : V) : nat :=
  if fuel is fuel'.+1 then
    if cond loop_vars then (while_count fuel' cond body (body loop_vars)).+1
    else 0%N
  else 0%N.

(** Python exceptions the class can raise by itself. *)
Variant exn : Set := AttributeError.

Variant result (A : Type) : Type :=
  | Ok of A
  | Raise of exn.

Arguments Raise {A} _.

Definition bind (A B : Type) (x : result A) (f : A -> result B) : result B :=
  match x with
  | Ok a => f a
  | Raise e => Raise e
  end.

Notation "x <- e ;; k" := (bind e (fun x => k))
  (at level 100, e at next level, right associativity).

(** What [print] writes: a message or a reward value. *)
Variant out (T : Type) : Type :=
  | PrintStr of string
  | PrintVal of T.

Arguments PrintStr {T} _.

Section Pilco.

(** ** Data model *)

Variable R : realFieldType.

(** [state_dim = Y.shape[1]], [control_dim = X.shape[1] - Y.shape[1]]. *)
Variables state_dim control_dim : nat.

Let mean := 'rV[R]_state_dim.
Let cov := 'M[R]_state_dim.
Let scalar := 'M[R]_1.

(** The float literals of the source. *)
Definition lit_0_1 : R := 1 / 10%:R.
Definition lit_0_33 : R := 33%:R / 100%:R.
Definition lit_0_67 : R := 67%:R / 100%:R.

(** *** Collaborators (contracts of section 6 of the specification) *)

(** The dynamics model ([MGPR] / [SMGPR]) and the reward, with their
    parameters. *)
Variables MGPR Reward : Type.

(** [mgpr.predict_on_noisy_inputs(m, s) -> (M_dx, S_dx, C_dx)]. *)
Variable predict_on_noisy_inputs :
  MGPR -> 'rV[R]_(state_dim + control_dim) -> 'M[R]_(state_dim + control_dim) ->
  'rV[R]_state_dim * 'M[R]_state_dim * 'M[R]_(state_dim + control_dim, state_dim).

(** [reward.compute_reward(m_x, s_x) -> (expected reward, variance)]. *)
Variable compute_reward : Reward -> mean -> cov -> scalar * scalar.

(** Modelled from the spec: the class of the controller's sub-models, which
    is not in pilco.py.  Section 6: the policy "exposes a collection of
    mutable internal parameter sub-components"; the fields are the ones
    [restart_controller] assigns: [m.X], [m.Y], [m.kern.lengthscales]. *)
Variables num_basis out_dim : nat.

Record GPModel : Type := mkGPModel {
  m_X : 'M[R]_(num_basis, state_dim);
  m_Y : 'M[R]_(num_basis, out_dim);
  m_kern_lengthscales : 'rV[R]_state_dim
}.

(** Modelled from the spec: the controller class, which is not in pilco.py.
    Section 6: its list [models] of sub-models, and whatever other
    parameters the policy has. *)
Variable CtrlParams : Type.

Record Controller : Type := mkController {
  models : seq GPModel;
  ctrl_params : CtrlParams
}.

(** [controller.compute_action(m_x, s_x) -> (m_u, s_u, c_xu)]. *)
Variable compute_action :
  Controller -> mean -> cov ->
  'rV[R]_control_dim * 'M[R]_control_dim * 'M[R]_(state_dim, control_dim).

(** The optimiser handle kept in [self.optimizer]. *)
Variable Optimizer : Type.

(** [np.random]: the generator state, [np.random.rand()] and
    [np.random.normal(size=(m, n))]. *)
Variable rng : Type.
Variable rand : rng -> R * rng.
Variable normal : forall m n : nat, rng -> 'M[R]_(m, n) * rng.

(** *** The [PILCO] object *)

Record PILCO : Type := mkPILCO {
  mgpr : MGPR;
  horizon : Z;
  controller : Controller;
  reward : Reward;
  m_init : mean;
  S_init : cov;
  optimizer : option Optimizer
}.

(** ** [propagate] (lines 117-132) *)

(** The joint belief over (state, action) that [propagate] hands to the
    dynamics model: lines 118-123. *)
Definition joint_input (self : PILCO) (m_x : mean) (s_x : cov) :
    'rV[R]_(state_dim + control_dim) * 'M[R]_(state_dim + control_dim) :=
  let: (m_u, s_u, c_xu) := compute_action (controller self) m_x s_x in
  let m := row_mx m_x m_u in
  let s1 := row_mx s_x (s_x *m c_xu) in
  let s2 := row_mx (s_x *m c_xu)^T s_u in
  let s := col_mx s1 s2 in
  (m, s).

Definition propagate (self : PILCO) (m_x : mean) (s_x : cov) : mean * cov :=
  let: (m_u, s_u, c_xu) := compute_action (controller self) m_x s_x in
  let m := row_mx m_x m_u in
  let s1 := row_mx s_x (s_x *m c_xu) in
  let s2 := row_mx (s_x *m c_xu)^T s_u in
  let s := col_mx s1 s2 in
  let: (M_dx, S_dx, C_dx) := predict_on_noisy_inputs (mgpr self) m s in
  let M_x := M_dx + m_x in
  let S_x := S_dx + s_x + s1 *m C_dx + C_dx^T *m s1^T in
  (M_x, S_x).

(** ** [predict] (lines 96-115) *)

Definition loop_state : Type := (Z * mean * cov * scalar)%type.

(** Termination condition: [lambda j, m_x, s_x, reward: j < n]. *)
Definition predict_cond (n : Z) (v : loop_state) : bool :=
  let: (j, m_x, s_x, reward) := v in (j <? n)%ZZ.

(** Body function: the tuple is built from the lambda's own arguments. *)
Definition predict_body (self : PILCO) (v : loop_state) : loop_state :=
  let: (j, m_x, s_x, reward_acc) := v in
  let: (M_x, S_x) := propagate self m_x s_x in
  (wrap_int32 (j + 1), M_x, S_x,
   reward_acc + (compute_reward (reward self) m_x s_x).1).

Definition predict_loop (self : PILCO) (m_x : mean) (s_x : cov) (n : Z) :
    loop_state :=
  let loop_vars := (0%ZZ, m_x, s_x, (0 : scalar)) in
  while_loop (Z.to_nat n) (predict_cond n) (predict_body self) loop_vars.

Definition predict (self : PILCO) (m_x : mean) (s_x : cov) (n : Z) :
    mean * cov * scalar :=
  let: (_, m_x, s_x, reward_acc) := predict_loop self m_x s_x n in
  (m_x, s_x, reward_acc).

(** [_build_likelihood] / [compute_return] (lines 49-52, 173-175). *)
Definition compute_return (self : PILCO) : scalar :=
  (predict self (m_init self) (S_init self) (horizon self)).2.

(** ** The constructor (lines 16-46) *)

(** Constructors of the collaborators, and the model's own fit. *)
Variable num_data : nat.
Variable MGPR_init :
  'M[R]_(1 + num_data, state_dim + control_dim) ->
  'M[R]_(1 + num_data, state_dim) -> MGPR.
Variable SMGPR_init :
  'M[R]_(1 + num_data, state_dim + control_dim) ->
  'M[R]_(1 + num_data, state_dim) -> nat -> MGPR.
Variable LinearController_init : Controller.
Variable ExponentialReward_init : Reward.
Variable mgpr_optimize : MGPR -> MGPR.

(** [PILCO.__init__]; [None] arguments are [None] options, and a
    [num_induced_points] of [0] is falsy like [None]. *)
Definition PILCO_init
    (X : 'M[R]_(1 + num_data, state_dim + control_dim))
    (Y : 'M[R]_(1 + num_data, state_dim))
    (num_induced_points : option nat) (horizon_arg : Z)
    (controller_arg : option Controller) (reward_arg : option Reward)
    (m_init_arg : option mean) (S_init_arg : option cov) : PILCO :=
  let mgpr_ :=
    match num_induced_points with
    | Some k => if k == 0%N then MGPR_init X Y else SMGPR_init X Y k
    | None => MGPR_init X Y
    end in
  let controller_ :=
    if controller_arg is Some c then c else LinearController_init in
  let reward_ :=
    if reward_arg is Some r then r else ExponentialReward_init in
  let: (m_init_, S_init_) :=
    match m_init_arg, S_init_arg with
    | Some m, Some s => (m, s)
    | _, _ =>
      (lsubmx (usubmx X),
       diag_mx (map_mx (fun x => x * lit_0_1) (const_mx 1)))
    end in
  {| mgpr := mgpr_; horizon := horizon_arg; controller := controller_;
     reward := reward_; m_init := m_init_; S_init := S_init_;
     optimizer := None |}.

(** ** [optimize] (lines 54-90) *)

Definition set_mgpr (self : PILCO) (g : MGPR) : PILCO :=
  {| mgpr := g; horizon := horizon self; controller := controller self;
     reward := reward self; m_init := m_init self; S_init := S_init self;
     optimizer := optimizer self |}.

Definition set_controller (self : PILCO) (c : Controller) : PILCO :=
  {| mgpr := mgpr self; horizon := horizon self; controller := c;
     reward := reward self; m_init := m_init self; S_init := S_init self;
     optimizer := optimizer self |}.

Definition set_optimizer (self : PILCO) (o : option Optimizer) : PILCO :=
  {| mgpr := mgpr self; horizon := horizon self; controller := controller self;
     reward := reward self; m_init := m_init self; S_init := S_init self;
     optimizer := o |}.

(** The quasi-Newton search itself: a first run with an iteration budget,
    which also yields the handle, and a run that resumes from a handle.
    Both search over the policy's parameters for a given objective. *)
Variable lbfgsb_first :
  nat -> (Controller -> scalar) -> Controller -> Controller * Optimizer.
Variable lbfgsb_resume :
  Optimizer -> (Controller -> scalar) -> Controller -> Controller.

(** Modelled from the spec: the objective of gpflow's optimiser, which is
    not in pilco.py.  Section 4.3: "gradient-based minimization of the
    negative cumulative reward with respect to Policy Parameters". *)
Definition objective (self : PILCO) (c : Controller) : scalar :=
  - compute_return (set_controller self c).

(** Modelled from the spec: [ScipyOptimizer(method="L-BFGS-B")] followed by
    [minimize(self, disp=True, maxiter=maxiter)] of gpflow, which is not in
    pilco.py.  Section 4.3: the search moves the Policy Parameters ("Dynamics
    Model parameters are first optimized separately and then held fixed
    during this phase") and leaves an optimiser state for later calls. *)
Definition ScipyOptimizer_minimize (self : PILCO) (maxiter : nat) : PILCO :=
  let: (c, opt) := lbfgsb_first maxiter (objective self) (controller self) in
  set_optimizer (set_controller self c) (Some opt).

(** Modelled from the spec: [optimizer._optimizer.minimize(session=...,
    feed_dict=..., step_callback=None)] of gpflow, which is not in pilco.py.
    Section 4.3: "accepts a previously-created optimizer state to allow
    successive calls to resume"; as above it moves the Policy Parameters
    only. *)
Definition optimizer_minimize (opt : Optimizer) (self : PILCO) : PILCO :=
  set_controller self (lbfgsb_resume opt (objective self) (controller self)).

(** First stage of [optimize]: [self.mgpr.optimize()]. *)
Definition optimize_model (self : PILCO) : PILCO :=
  set_mgpr self (mgpr_optimize (mgpr self)).

(** Second stage of [optimize]: the branch on [self.optimizer]. *)
Definition optimize_policy (self : PILCO) (maxiter : nat) : PILCO :=
  if optimizer self is Some opt then optimizer_minimize opt self
  else ScipyOptimizer_minimize self maxiter.

(** [optimize]; the timing messages and the table of learned
    hyper-parameters only read the object and are left out. *)
Definition optimize (self : PILCO) (maxiter : nat) : PILCO :=
  optimize_policy (optimize_model self) maxiter.

(** ** [restart_controller] (lines 134-171) *)

(** [self.read_values(session)] and [self.assign(values, session)] of
    gpflow: the values of the parameters held by the object's children
    (section 3: the checkpoint is "a deep copy of all Policy (and, during
    restarts, Dynamics Model) parameters"). *)
Definition param_values : Type := (MGPR * Controller * Reward)%type.

Definition read_values (self : PILCO) : param_values :=
  (mgpr self, controller self, reward self).

Definition assign (v : param_values) (self : PILCO) : PILCO :=
  let: (g, c, r) := v in
  {| mgpr := g; horizon := horizon self; controller := c; reward := r;
     m_init := m_init self; S_init := S_init self;
     optimizer := optimizer self |}.

(** numpy broadcasting of a row over the rows of a matrix. *)
Definition broadcast_rows (m n : nat) (v : 'rV[R]_n) : 'M[R]_(m, n) :=
  \matrix_(i, j) v 0 j.

(** The three bodies of the [if]/[elif]/[else] (lines 142-144, 147-149,
    152-155); the draws are taken in the order of the assignments. *)
Definition reinitialise (m : GPModel) (g : rng) : GPModel * rng :=
  let: (nX, g) := normal num_basis state_dim g in
  let: (nY, g) := normal num_basis out_dim g in
  let: (nL, g) := normal 1 state_dim g in
  (mkGPModel (lit_0_1 *: nX) (lit_0_1 *: nY) (lit_0_1 *: nL + const_mx 1), g).

Definition reinitialise_near_m_init (self : PILCO) (m : GPModel) (g : rng) :
    GPModel * rng :=
  let: (nX, g) := normal num_basis state_dim g in
  let: (nY, g) := normal num_basis out_dim g in
  let: (nL, g) := normal 1 state_dim g in
  (mkGPModel (lit_0_1 *: nX + broadcast_rows num_basis (m_init self))
     (lit_0_1 *: nY) (lit_0_1 *: nL + const_mx 1), g).

Definition perturb_current (m : GPModel) (g : rng) : GPModel * rng :=
  let: (nX, g) := normal num_basis state_dim g in
  let: (nY, g) := normal num_basis out_dim g in
  let: (nL, g) := normal 1 state_dim g in
  (mkGPModel (lit_0_1 *: nX + m_X m) (lit_0_1 *: nY + m_Y m)
     (lit_0_1 *: nL + m_kern_lengthscales m), g).

Definition perturb_acc : Type := (seq GPModel * rng * seq (out scalar))%type.

(** Body of [for m in self.controller.models] (lines 140-155). *)
Definition perturb_model (self : PILCO) (select : R) (acc : perturb_acc)
    (m : GPModel) : perturb_acc :=
  let: (ms, g, log) := acc in
  if select < lit_0_33 then
    let: (m', g') := reinitialise m g in
    (rcons ms m', g', rcons log (PrintStr "Reinitialising"))
  else if select < lit_0_67 then
    let: (m', g') := reinitialise_near_m_init self m g in
    (rcons ms m', g',
     rcons log (PrintStr "Reinitialising with X close to m_init"))
  else
    let: (m', g') := perturb_current m g in
    (rcons ms m', g', rcons log (PrintStr "Perturbing current values")).

Arguments perturb_model : simpl never.

(** Lines 138-155: the draw of [select] and the loop over the models. *)
Definition perturb_phase (self : PILCO) (g : rng) :
    PILCO * rng * seq (out scalar) :=
  let: (select, g) := rand g in
  let: (ms, g, log) :=
    foldl (perturb_model self select) ([::], g, [::])
      (models (controller self)) in
  (set_controller self (mkController ms (ctrl_params (controller self))),
   g, log).

(** The variables of the loop over [range(restarts)]. *)
Record restart_state : Type := mkRestart {
  live : PILCO;
  values : param_values;
  old_reward : scalar;
  gen : rng;
  printed : seq (out scalar)
}.

(** [old_reward > reward] on arrays of shape [1, 1]. *)
Definition gt_scalar (a b : scalar) : bool := b 0 0 < a 0 0.

(** Lines 156-160: re-optimisation of the perturbed policy.  With
    [self.optimizer] still [None] the attribute access raises. *)
Definition reoptimize (self : PILCO) : result PILCO :=
  if optimizer self is Some opt then Ok (optimizer_minimize opt self)
  else Raise AttributeError.

(** One pass of the loop body (lines 138-171). *)
Definition restart_trial (st : restart_state) : result restart_state :=
  let: (self, g, log) := perturb_phase (live st) (gen st) in
  let log := rcons (printed st ++ log) (PrintVal (old_reward st)) in
  self <- reoptimize self ;;
  let reward_ := compute_return self in
  let log := log ++ [:: PrintVal (old_reward st); PrintVal reward_] in
  if gt_scalar (old_reward st) reward_ then
    let log := rcons log (PrintStr "Restoring controller values") in
    let self := assign (values st) self in
    let log := rcons log (PrintVal (compute_return self)) in
    Ok (mkRestart self (values st) (old_reward st) g log)
  else
    let log := rcons log (PrintStr "Successful restart") in
    Ok (mkRestart self (read_values self) reward_ g log).

Fixpoint restart_loop (restarts : nat) (st : restart_state) :
    result restart_state :=
  if restarts is r.+1 then
    st' <- restart_trial st ;; restart_loop r st'
  else Ok st.

(** Lines 135-136: the snapshot and the baseline taken before the loop. *)
Definition restart_init (self : PILCO) (g : rng) : restart_state :=
  mkRestart self (read_values self) (compute_return self) g [::].

Definition restart_controller (self : PILCO) (restarts : nat) (g : rng) :
    result restart_state :=
  restart_loop restarts (restart_init self g).

(** ** Specification-side definitions, to compare the code with *)

Definition symmetric (n : nat) (A : 'M[R]_n) : Prop := A^T = A.

(** The belief after [k] applications of [propagate]. *)
Definition belief_after (self : PILCO) (m_x : mean) (s_x : cov) (k : nat) :
    mean * cov :=
  iter k (fun b => propagate self b.1 b.2) (m_x, s_x).

(** Expected reward of the belief after [k] steps. *)
Definition reward_after (self : PILCO) (m_x : mean) (s_x : cov) (k : nat) :
    scalar :=
  (compute_reward (reward self) (belief_after self m_x s_x k).1
     (belief_after self m_x s_x k).2).1.

(** The rollout as section 4.2 words it: the reward of each iteration is
    taken on the belief after that iteration's step. *)
Definition rollout_post_step (self : PILCO) (m_x : mean) (s_x : cov)
    (n : nat) : mean * cov * scalar :=
  ((belief_after self m_x s_x n).1, (belief_after self m_x s_x n).2,
   \sum_(1 <= k < n.+1) reward_after self m_x s_x k).

(** The joint covariance as section 4.1 words it: the matrix returned by
    the policy itself stands off the diagonal. *)
Definition joint_input_spec (self : PILCO) (m_x : mean) (s_x : cov) :
    'rV[R]_(state_dim + control_dim) * 'M[R]_(state_dim + control_dim) :=
  let: (m_u, s_u, c_xu) := compute_action (controller self) m_x s_x in
  (row_mx m_x m_u, block_mx s_x c_xu c_xu^T s_u).

(** A horizon the specification calls valid (section 7 names zero and
    negative ones invalid). *)
Definition valid_horizon (h : Z) : Prop := (1 <= h)%ZZ.

(** The three perturbation strategies of section 4.4, the draws that
    select each, the message each prints and what each does to one
    sub-model. *)
Variant strategy : Set := StrategyA | StrategyB | StrategyC.

Definition strategy_chosen (draw : R) (st : strategy) : bool :=
  match st with
  | StrategyA => draw < lit_0_33
  | StrategyB => (lit_0_33 <= draw) && (draw < lit_0_67)
  | StrategyC => lit_0_67 <= draw
  end.

Definition strategy_message (st : strategy) : string :=
  match st with
  | StrategyA => "Reinitialising"
  | StrategyB => "Reinitialising with X close to m_init"
  | StrategyC => "Perturbing current values"
  end.

Definition apply_strategy (self : PILCO) (st : strategy) (m : GPModel)
    (g : rng) : GPModel * rng :=
  match st with
  | StrategyA => reinitialise m g
  | StrategyB => reinitialise_near_m_init self m g
  | StrategyC => perturb_current m g
  end.

(** One strategy applied to the sub-models in turn, the generator threaded
    through. *)
Fixpoint apply_to_all (self : PILCO) (st : strategy) (ms : seq GPModel)
    (g : rng) : seq GPModel * rng :=
  if ms is m :: ms' then
    let: (m', g') := apply_strategy self st m g in
    let: (ms'', g'') := apply_to_all self st ms' g' in
    (m' :: ms'', g'')
  else ([::], g).

(** * Properties *)

(** ** The int32 counter and the loop *)

Lemma wrap_int32_small (z : Z) :
  (- 2 ^ 31 <= z < 2 ^ 31)%ZZ -> wrap_int32 z = z.
Proof.
move=> Hz; rewrite /wrap_int32 Z.mod_small; lia.
Qed.

Lemma while_loopS (V : Type) (fuel : nat) (cond : V -> bool) (body : V -> V)
    (v : V) :
  while_loop fuel.+1 cond body v =
  if cond v then while_loop fuel cond body (body v) else v.
Proof. by []. Qed.

Lemma while_countS (V : Type) (fuel : nat) (cond : V -> bool)
    (body : V -> V) (v : V) :
  while_count fuel.+1 cond body v =
  if cond v then (while_count fuel cond body (body v)).+1 else 0%N.
Proof. by []. Qed.

Lemma while_loop_invariant (V : Type) (P : V -> Prop) (cond : V -> bool)
    (body : V -> V) :
  (forall v, cond v -> P v -> P (body v)) ->
  forall fuel v, P v -> P (while_loop fuel cond body v).
Proof.
move=> Hbody; elim=> [|fuel IH] v Pv //=.
by case Hc: (cond v) => //; apply: IH; apply: Hbody.
Qed.

(** ** [propagate] *)

Lemma propagate_joint (self : PILCO) (m_x : mean) (s_x : cov) :
  propagate self m_x s_x =
  let: (m, s) := joint_input self m_x s_x in
  let: (M_dx, S_dx, C_dx) := predict_on_noisy_inputs (mgpr self) m s in
  (M_dx + m_x, S_dx + s_x + usubmx s *m C_dx + C_dx^T *m (usubmx s)^T).
Proof.
rewrite /propagate /joint_input.
case: (compute_action _ _ _) => [[m_u s_u] c_xu].
by case: (predict_on_noisy_inputs _ _ _) => [[M_dx S_dx] C_dx]; rewrite col_mxKu.
Qed.

(** C2. For every state belief, [propagate] returns as next mean the state
    mean plus the model's delta mean, and as next covariance the delta
    covariance plus the state covariance plus the cross term (first block-row
    of the joint input covariance times the model's input-output
    cross-covariance) plus the transpose of that cross term. *)
Theorem propagate_moments (self : PILCO) (m_x : mean) (s_x : cov) :
  let: (m, s) := joint_input self m_x s_x in
  let: (M_dx, S_dx, C_dx) := predict_on_noisy_inputs (mgpr self) m s in
  let cross := usubmx s *m C_dx in
  propagate self m_x s_x = (m_x + M_dx, S_dx + s_x + cross + cross^T).
Proof.
rewrite propagate_joint.
case: (joint_input _ _ _) => m s.
case: (predict_on_noisy_inputs _ _ _) => [[M_dx S_dx] C_dx] /=.
by rewrite trmx_mul [M_dx + m_x]addrC.
Qed.

(** C3 (amended). The joint input belief built by [propagate] has as mean
    the state mean followed by the action mean, and as covariance the block
    matrix with the state and action covariances on the diagonal and, off
    the diagonal, the state covariance times the matrix [c_xu] returned by
    [compute_action], and the transpose of that product. *)
Theorem joint_input_blocks (self : PILCO) (m_x : mean) (s_x : cov) :
  let: (m_u, s_u, c_xu) := compute_action (controller self) m_x s_x in
  joint_input self m_x s_x =
  (row_mx m_x m_u, block_mx s_x (s_x *m c_xu) (s_x *m c_xu)^T s_u).
Proof.
rewrite /joint_input.
by case: (compute_action _ _ _) => [[m_u s_u] c_xu].
Qed.

Lemma propagate_step_symmetric (self : PILCO) (m_x : mean) (s_x : cov) :
  (forall m s, symmetric (predict_on_noisy_inputs (mgpr self) m s).1.2) ->
  symmetric s_x -> symmetric (propagate self m_x s_x).2.
Proof.
move=> Hmodel Hs; rewrite /symmetric propagate_joint.
case: (joint_input _ _ _) => m s.
move: (Hmodel m s).
case: (predict_on_noisy_inputs _ _ _) => [[M_dx S_dx] C_dx] /= HS.
rewrite -trmx_mul !linearD /= HS Hs trmxK.
by rewrite -!addrA [(_ *m _)^T + _]addrC.
Qed.

Lemma predict_loop_symmetric (self : PILCO) (m_x : mean) (s_x : cov) (n : Z) :
  (forall m s, symmetric (predict_on_noisy_inputs (mgpr self) m s).1.2) ->
  symmetric s_x -> symmetric (predict_loop self m_x s_x n).1.2.
Proof.
move=> Hmodel Hs; rewrite /predict_loop.
apply: (@while_loop_invariant _ (fun v : loop_state => symmetric v.1.2)) => //.
move=> [[[j m] s] r] _ /= Hsym.
move: (propagate_step_symmetric m Hmodel Hsym).
by rewrite /predict_body; case: (propagate _ _ _).
Qed.

(** C7. When the dynamics model returns symmetric delta covariances, the
    covariance returned by [propagate] for a symmetric state covariance is
    symmetric, and so is the covariance after every number of propagation
    steps of the rollout. *)
Theorem propagate_symmetric (self : PILCO) (m_x : mean) (s_x : cov) :
  (forall m s, symmetric (predict_on_noisy_inputs (mgpr self) m s).1.2) ->
  symmetric s_x ->
  symmetric (propagate self m_x s_x).2 /\
  (forall k, symmetric (belief_after self m_x s_x k).2) /\
  (forall n, symmetric (predict self m_x s_x n).1.2).
Proof.
move=> Hmodel Hs; split; first exact: propagate_step_symmetric.
split.
  elim=> [|k IH] //=.
  exact: propagate_step_symmetric.
move=> n; move: (predict_loop_symmetric m_x n Hmodel Hs).
by rewrite /predict; case: (predict_loop _ _ _ _) => [[[j m] s] r].
Qed.

(** ** [predict] *)

Lemma belief_afterS (self : PILCO) (m_x : mean) (s_x : cov) (k : nat) :
  belief_after self m_x s_x k.+1 =
  belief_after self (propagate self m_x s_x).1 (propagate self m_x s_x).2 k.
Proof.
rewrite /belief_after iterSr /=.
by case: (propagate self m_x s_x).
Qed.

Lemma predict_bodyE (self : PILCO) (j : Z) (m : mean) (s : cov) (r : scalar) :
  predict_body self (j, m, s, r) =
  (wrap_int32 (j + 1), (propagate self m s).1, (propagate self m s).2,
   r + (compute_reward (reward self) m s).1).
Proof. by rewrite /predict_body; case: (propagate self m s). Qed.

(** The loop started at counter [j] with [k] iterations to go. *)
Lemma while_loop_predict (self : PILCO) (n : Z) :
  (n < 2 ^ 31)%ZZ ->
  forall (k : nat) (j : Z) (m : mean) (s : cov) (r : scalar),
  (0 <= j)%ZZ -> (j + Z.of_nat k = n)%ZZ ->
  while_loop k (predict_cond n) (predict_body self) (j, m, s, r) =
    (n, (belief_after self m s k).1, (belief_after self m s k).2,
     r + \sum_(0 <= i < k) reward_after self m s i) /\
  while_count k (predict_cond n) (predict_body self) (j, m, s, r) = k.
Proof.
move=> Hn; elim=> [|k IH] j m s r Hj Hjk.
  rewrite /= big_geq // addr0; split=> //.
  by congr (_, _, _, _); lia.
have Hw : wrap_int32 (j + 1) = (j + 1)%ZZ by apply: wrap_int32_small; lia.
have Hlt : predict_cond n (j, m, s, r) = true.
  by rewrite /predict_cond; apply/Z.ltb_lt; lia.
rewrite while_loopS while_countS Hlt predict_bodyE Hw {Hlt Hw}.
have Hj1 : (0 <= j + 1)%ZZ by lia.
have Hjk1 : (j + 1 + Z.of_nat k = n)%ZZ by lia.
have [-> ->] := IH _ (propagate self m s).1 (propagate self m s).2
  (r + (compute_reward (reward self) m s).1) Hj1 Hjk1.
split=> //.
rewrite -!belief_afterS big_nat_recl // -addrA.
congr (_, _, _, _); congr (_ + (_ + _)).
by apply: eq_bigr => i _; rewrite /reward_after belief_afterS.
Qed.

Lemma predict_loop_closed (self : PILCO) (m_x : mean) (s_x : cov) (n : Z) :
  (n < 2 ^ 31)%ZZ ->
  predict_loop self m_x s_x n =
    (Z.max 0 n, (belief_after self m_x s_x (Z.to_nat n)).1,
     (belief_after self m_x s_x (Z.to_nat n)).2,
     \sum_(0 <= i < Z.to_nat n) reward_after self m_x s_x i) /\
  while_count (Z.to_nat n) (predict_cond n) (predict_body self)
    (0%ZZ, m_x, s_x, 0) = Z.to_nat n.
Proof.
move=> Hn; rewrite /predict_loop.
have [Hneg|Hpos] := Z_lt_le_dec n 0.
  have -> : Z.to_nat n = 0%N by lia.
  rewrite /= big_geq //; split=> //.
  by congr (_, _, _, _); lia.
have H0 : (0 <= 0)%ZZ by [].
have H0n : (0 + Z.of_nat (Z.to_nat n) = n)%ZZ by lia.
have [-> ->] := while_loop_predict self Hn m_x s_x 0 H0 H0n.
by rewrite add0r; split=> //; congr (_, _, _, _); lia.
Qed.

(** The bound on the iterations is not what stops the loop: on exit the
    termination condition is false. *)
Lemma while_loop_exits (self : PILCO) (m_x : mean) (s_x : cov) (n : Z) :
  (n < 2 ^ 31)%ZZ -> predict_cond n (predict_loop self m_x s_x n) = false.
Proof.
move=> Hn; have [-> _] := predict_loop_closed self m_x s_x Hn.
by rewrite /predict_cond; apply/Z.ltb_ge; lia.
Qed.

(** C1 (amended). For every horizon [1 <= n < 2^31], each iteration of the
    rollout loop invokes the reward on the belief the iteration started
    from (the argument of that iteration's [propagate]), the body runs [n]
    times, and the cumulative reward is the sum of the rewards of the
    beliefs after steps [0 .. n-1]; the returned belief is the one after
    [n] steps. *)
Theorem predict_rewards_pre_step (self : PILCO) (m_x : mean) (s_x : cov)
    (n : Z) :
  (1 <= n < 2 ^ 31)%ZZ ->
  (forall j m s r,
     predict_body self (j, m, s, r) =
     (wrap_int32 (j + 1), (propagate self m s).1, (propagate self m s).2,
      r + (compute_reward (reward self) m s).1)) /\
  while_count (Z.to_nat n) (predict_cond n) (predict_body self)
    (0%ZZ, m_x, s_x, 0) = Z.to_nat n /\
  predict self m_x s_x n =
    ((belief_after self m_x s_x (Z.to_nat n)).1,
     (belief_after self m_x s_x (Z.to_nat n)).2,
     \sum_(0 <= k < Z.to_nat n) reward_after self m_x s_x k).
Proof.
move=> [Hn1 Hn]; split; first exact: predict_bodyE.
have [Hloop Hcount] := predict_loop_closed self m_x s_x Hn.
by split=> //; rewrite /predict Hloop.
Qed.

(** C8. With horizon [0] the rollout returns the initial belief and the
    cumulative reward [0]; the loop body does not run. *)
Theorem predict_horizon_zero (self : PILCO) (m_x : mean) (s_x : cov) :
  predict self m_x s_x 0 = (m_x, s_x, 0) /\
  predict_loop self m_x s_x 0 = (0%ZZ, m_x, s_x, 0) /\
  while_count (Z.to_nat 0) (predict_cond 0) (predict_body self)
    (0%ZZ, m_x, s_x, 0) = 0%N.
Proof. by []. Qed.

Lemma predict_nonpos (self : PILCO) (m_x : mean) (s_x : cov) (n : Z) :
  (n <= 0)%ZZ ->
  predict self m_x s_x n = (m_x, s_x, 0) /\
  while_count (Z.to_nat n) (predict_cond n) (predict_body self)
    (0%ZZ, m_x, s_x, 0) = 0%N.
Proof.
move=> Hn; rewrite /predict /predict_loop.
by have -> : Z.to_nat n = 0%N by lia.
Qed.

(** ** The constructor *)

Lemma PILCO_init_horizon X Y nip h c r om oS :
  horizon (PILCO_init X Y nip h c r om oS) = h.
Proof. by rewrite /PILCO_init; case: om => [m|]; case: oS => [s|]. Qed.

(** C9 (amended). The constructor stores every horizon it is given, also a
    zero or negative one, and raises nothing; with such a horizon the
    rollout of the constructed object does not enter its loop and returns
    the initial belief with the cumulative reward [0]. *)
Theorem PILCO_init_keeps_horizon X Y nip h c r om oS :
  let self := PILCO_init X Y nip h c r om oS in
  horizon self = h /\
  ((h <= 0)%ZZ ->
   [/\ while_count (Z.to_nat (horizon self)) (predict_cond (horizon self))
         (predict_body self) (0%ZZ, m_init self, S_init self, 0) = 0%N,
       predict self (m_init self) (S_init self) (horizon self) =
         (m_init self, S_init self, 0) &
       compute_return self = 0]).
Proof.
move=> self; split; first exact: PILCO_init_horizon.
move=> Hh; rewrite /compute_return.
have Hle : (horizon self <= 0)%ZZ by rewrite /self PILCO_init_horizon.
by have [-> ->] := predict_nonpos self (m_init self) (S_init self) Hle.
Qed.

(** C10. When [m_init] or [S_init] is [None], the initial mean is the first
    row of [X] restricted to its first [state_dim] columns and the initial
    covariance is [0.1] times the identity of size [state_dim]; when both
    are given they are stored unchanged. *)
Theorem PILCO_init_belief X Y nip h c r om oS :
  let self := PILCO_init X Y nip h c r om oS in
  match om, oS with
  | Some m, Some s => m_init self = m /\ S_init self = s
  | _, _ =>
    (forall j, m_init self ord0 j = X ord0 (lshift control_dim j)) /\
    S_init self = lit_0_1 *: 1%:M
  end.
Proof.
have Hdiag : diag_mx (map_mx (fun x : R => x * lit_0_1) (const_mx 1)) =
             lit_0_1 *: 1%:M :> cov.
  by rewrite map_const_mx mul1r diag_const_mx scalemx1.
have Hrow j : lsubmx (usubmx X) ord0 j = X ord0 (lshift control_dim j).
  by rewrite !mxE; congr (X _ _); apply: val_inj.
rewrite /PILCO_init; case: om => [m|]; case: oS => [s|] //=.
Qed.

(** ** [optimize] *)

(** C5. The policy-optimisation stage of [optimize] leaves the dynamics
    model (and the reward, the horizon and the initial belief) as the
    model-fitting stage left them: of the parameters, only those of the
    controller move. *)
Theorem optimize_policy_frame (self : PILCO) (maxiter : nat) :
  let fitted := optimize_model self in
  let self' := optimize_policy fitted maxiter in
  optimize self maxiter = self' /\
  mgpr self' = mgpr fitted /\
  read_values self' = (mgpr fitted, controller self', reward fitted) /\
  (horizon self', m_init self', S_init self') =
  (horizon self, m_init self, S_init self).
Proof.
rewrite /optimize /optimize_policy /ScipyOptimizer_minimize.
case: (optimizer (optimize_model self)) => [opt|] //=.
by case: (lbfgsb_first _ _ _).
Qed.

(** ** [restart_controller]: the perturbation *)

Lemma lit_0_33_lt_0_67 : lit_0_33 < lit_0_67.
Proof.
by rewrite /lit_0_33 /lit_0_67 ltr_pM2r ?invr_gt0 ?ltr0n // ltr_nat.
Qed.

Lemma strategy_chosen_total (draw : R) :
  exists st, strategy_chosen draw st /\
             forall st', strategy_chosen draw st' -> st' = st.
Proof.
have H := lit_0_33_lt_0_67.
case: (ltP draw lit_0_33) => H1.
  exists StrategyA; split; first by [].
  case=> //=; first by rewrite leNgt H1.
  by rewrite leNgt (lt_trans H1 H).
case: (ltP draw lit_0_67) => H2.
  exists StrategyB; split; first by rewrite /= H1 H2.
  by case=> //=; [rewrite ltNge H1 | rewrite leNgt H2].
exists StrategyC; split; first by [].
case=> //=; first by rewrite ltNge H1.
by rewrite [draw < _]ltNge H2 andbF.
Qed.

Lemma perturb_model_strategy (self : PILCO) (select : R) (st : strategy) :
  strategy_chosen select st ->
  forall acc m,
  perturb_model self select acc m =
  (rcons acc.1.1 (apply_strategy self st m acc.1.2).1,
   (apply_strategy self st m acc.1.2).2,
   rcons acc.2 (PrintStr (strategy_message st))).
Proof.
have H := lit_0_33_lt_0_67.
case: st => /= Hst [[ms g] log] m; rewrite /perturb_model /=.
- by rewrite Hst; case: (reinitialise m g).
- case/andP: Hst => H1 H2; rewrite ltNge H1 /= H2.
  by case: (reinitialise_near_m_init self m g).
- rewrite [select < lit_0_33]ltNge (ltW (lt_le_trans H Hst)) /=.
  rewrite [select < lit_0_67]ltNge Hst /=.
  by case: (perturb_current m g).
Qed.

Lemma foldl_perturb_model (self : PILCO) (select : R) (st : strategy) :
  strategy_chosen select st ->
  forall ms done g log,
  foldl (perturb_model self select) (done, g, log) ms =
  (done ++ (apply_to_all self st ms g).1, (apply_to_all self st ms g).2,
   log ++ nseq (size ms) (PrintStr (strategy_message st))).
Proof.
move=> Hst; elim=> [|m ms IH] done g log /=; first by rewrite !cats0.
rewrite (perturb_model_strategy self Hst) /= IH.
case: (apply_strategy self st m g) => m' g' /=.
case: (apply_to_all self st ms g') => ms' g'' /=.
by rewrite -!cats1 -!catA.
Qed.

(** C6. In a restart trial one uniform draw is taken and compared with
    [0.33] and [0.67] by strict less-than; exactly one of the three
    strategies matches the draw, that strategy is the one applied to every
    sub-model of the controller (one message per sub-model, all of that
    strategy), a draw of exactly [0.33] selects strategy B and a draw of
    exactly [0.67] selects strategy C. *)
Theorem perturb_phase_one_strategy (self : PILCO) (g : rng) :
  (exists st,
     [/\ strategy_chosen (rand g).1 st,
         forall st', strategy_chosen (rand g).1 st' -> st' = st,
         models (controller (perturb_phase self g).1.1) =
           (apply_to_all self st (models (controller self)) (rand g).2).1,
         (perturb_phase self g).1.2 =
           (apply_to_all self st (models (controller self)) (rand g).2).2 &
         (perturb_phase self g).2 =
           nseq (size (models (controller self)))
                (PrintStr (strategy_message st))]) /\
  [/\ strategy_chosen lit_0_33 StrategyB,
      strategy_chosen lit_0_67 StrategyC,
      forall acc m,
        perturb_model self lit_0_33 acc m =
        (rcons acc.1.1 (reinitialise_near_m_init self m acc.1.2).1,
         (reinitialise_near_m_init self m acc.1.2).2,
         rcons acc.2 (PrintStr "Reinitialising with X close to m_init")) &
      forall acc m,
        perturb_model self lit_0_67 acc m =
        (rcons acc.1.1 (perturb_current m acc.1.2).1,
         (perturb_current m acc.1.2).2,
         rcons acc.2 (PrintStr "Perturbing current values"))].
Proof.
have HB : strategy_chosen lit_0_33 StrategyB.
  by rewrite /= lexx lit_0_33_lt_0_67.
have HC : strategy_chosen lit_0_67 StrategyC by rewrite /= lexx.
split; last first.
  split=> // acc m.
    exact: (perturb_model_strategy self HB).
  exact: (perturb_model_strategy self HC).
rewrite /perturb_phase; case: (rand g) => select g1 /=.
have [st [Hst Huniq]] := strategy_chosen_total select.
exists st; rewrite (foldl_perturb_model self Hst) /=.
by split.
Qed.

(** ** [restart_controller]: acceptance and rejection *)

Lemma assign_read_values (p q : PILCO) :
  horizon q = horizon p -> m_init q = m_init p -> S_init q = S_init p ->
  optimizer q = optimizer p -> assign (read_values p) q = p.
Proof. by case: p => *; rewrite /assign /= ; congr mkPILCO. Qed.

Lemma read_values_assign (v : param_values) (q : PILCO) :
  read_values (assign v q) = v.
Proof. by case: v => [[g c] r]. Qed.

(** What a trial tries: the live object perturbed and re-optimised. *)
Definition candidate (opt : Optimizer) (st : restart_state) : PILCO :=
  optimizer_minimize opt (perturb_phase (live st) (gen st)).1.1.

Lemma perturb_phase_optimizer (self : PILCO) (g : rng) :
  optimizer (perturb_phase self g).1.1 = optimizer self.
Proof.
rewrite /perturb_phase; case: (rand _) => select g1.
by case: (foldl _ _ _) => [[ms g2] log].
Qed.

Lemma candidate_frame (opt : Optimizer) (st : restart_state) :
  [/\ horizon (candidate opt st) = horizon (live st),
      m_init (candidate opt st) = m_init (live st),
      S_init (candidate opt st) = S_init (live st) &
      optimizer (candidate opt st) = optimizer (live st)].
Proof.
rewrite /candidate /perturb_phase; case: (rand _) => select g1.
by case: (foldl _ _ _) => [[ms g2] log].
Qed.

Lemma restart_trialE (opt : Optimizer) (st : restart_state) :
  optimizer (live st) = Some opt ->
  let cand := candidate opt st in
  let new_reward := compute_return cand in
  let g' := (perturb_phase (live st) (gen st)).1.2 in
  let log :=
    printed st ++ (perturb_phase (live st) (gen st)).2 ++
    [:: PrintVal (old_reward st); PrintVal (old_reward st);
        PrintVal new_reward] in
  restart_trial st =
  if gt_scalar (old_reward st) new_reward then
    Ok (mkRestart (assign (values st) cand) (values st) (old_reward st) g'
          (log ++ [:: PrintStr "Restoring controller values";
                      PrintVal (compute_return (assign (values st) cand))]))
  else
    Ok (mkRestart cand (read_values cand) new_reward g'
          (rcons log (PrintStr "Successful restart"))).
Proof.
move=> Hopt; rewrite /restart_trial /candidate.
have := candidate_frame opt st; rewrite /candidate.
case: (perturb_phase _ _) => [[self g'] log] /= [_ _ _ Ho].
have Hself : optimizer self = Some opt.
  by move: Ho; rewrite /optimizer_minimize /= Hopt.
rewrite /reoptimize Hself /=.
by case: (gt_scalar _ _); rewrite -!cats1 -!catA.
Qed.

(** The snapshot held in [values] is the live parameter set whenever a
    trial starts, and [old_reward] is its return. *)
Definition restart_inv (st : restart_state) : Prop :=
  values st = read_values (live st) /\
  old_reward st = compute_return (live st).

Lemma restart_trial_inv (st st' : restart_state) :
  restart_inv st -> restart_trial st = Ok st' -> restart_inv st'.
Proof.
move=> [Hv Hr].
case Hopt: (optimizer (live st)) => [opt|]; last first.
  rewrite /restart_trial.
  have := perturb_phase_optimizer (live st) (gen st).
  case: (perturb_phase _ _) => [[self2 g2] log2] /=.
  by rewrite Hopt /reoptimize => ->.
rewrite (restart_trialE Hopt).
have [H1 H2 H3 H4] := candidate_frame opt st.
case: (gt_scalar _ _) => -[<-] /=; split=> //=.
  by rewrite read_values_assign.
by rewrite Hv assign_read_values.
Qed.

Lemma restart_loop_inv (k : nat) (st st' : restart_state) :
  restart_inv st -> restart_loop k st = Ok st' -> restart_inv st'.
Proof.
elim: k st => [|k IH] st Hinv /=; first by case=> <-.
case Ht: (restart_trial st) => [st1|e] //= Hloop.
by apply: (IH st1) => //; apply: restart_trial_inv Ht.
Qed.

(** C4. In every restart trial (started from the loop variables [st]
    reached after any number of earlier trials), the trial is rejected
    exactly when [old_reward > new_reward]: then the live object is again
    the one the trial started from and [old_reward] is unchanged; otherwise,
    a tie included, the trial is accepted: the re-optimised candidate stays
    live and [old_reward] becomes the new reward. *)
Theorem restart_trial_accept_reject (self : PILCO) (g : rng) (k : nat)
    (st : restart_state) (opt : Optimizer) :
  restart_loop k (restart_init self g) = Ok st ->
  optimizer (live st) = Some opt ->
  let cand := candidate opt st in
  let new_reward := compute_return cand in
  exists st',
    restart_trial st = Ok st' /\
    if gt_scalar (old_reward st) new_reward then
      [/\ live st' = live st, read_values (live st') = values st,
          old_reward st' = old_reward st &
          last (PrintVal 0) (belast (PrintVal 0) (printed st')) =
          PrintStr "Restoring controller values"]
    else
      [/\ live st' = cand, values st' = read_values cand,
          old_reward st' = new_reward &
          last (PrintVal 0) (printed st') = PrintStr "Successful restart"].
Proof.
move=> Hloop Hopt cand new_reward.
have [Hv Hr] : restart_inv st by apply: restart_loop_inv Hloop.
have [H1 H2 H3 H4] := candidate_frame opt st.
rewrite (restart_trialE Hopt) -/cand -/new_reward.
case: (gt_scalar _ _); eexists; split; try reflexivity; split=> //=.
- by rewrite Hv assign_read_values.
- by rewrite read_values_assign.
- by rewrite belast_cat last_cat.
- by rewrite last_rcons.
Qed.

(** * Further properties of the class *)

(** ** [compute_action] (lines 92-94) *)

(** The action for a state known exactly: the controller queried with the
    zero covariance [tf.zeros([state_dim, state_dim])], first output. *)
Definition PILCO_compute_action (self : PILCO) (x_m : mean) :
    'rV[R]_control_dim :=
  (compute_action (controller self) x_m (0 : cov)).1.1.

(** X1. For a belief with zero covariance, the joint input that
    [propagate] builds has as mean the state followed by the action that
    the method [compute_action] returns, and its covariance is zero except
    for the action block. *)
Theorem joint_input_zero_covariance (self : PILCO) (x_m : mean) :
  joint_input self x_m 0 =
  (row_mx x_m (PILCO_compute_action self x_m),
   block_mx 0 0 0 (compute_action (controller self) x_m 0).1.2).
Proof.
rewrite /joint_input /PILCO_compute_action.
case: (compute_action _ _ _) => [[m_u s_u] c_xu] /=.
by rewrite mul0mx trmx0.
Qed.

(** ** [propagate] *)

(** X2. From a belief with zero covariance the cross terms vanish: the next
    covariance is the delta covariance of the model alone. *)
Theorem propagate_zero_covariance (self : PILCO) (m_x : mean) :
  propagate self m_x 0 =
  let: (m_u, s_u, c_xu) := compute_action (controller self) m_x 0 in
  let: (M_dx, S_dx, C_dx) :=
    predict_on_noisy_inputs (mgpr self) (row_mx m_x m_u)
      (block_mx 0 0 0 s_u) in
  (M_dx + m_x, S_dx).
Proof.
rewrite /propagate.
case: (compute_action _ _ _) => [[m_u s_u] c_xu].
rewrite mul0mx trmx0 -/(block_mx 0 0 0 s_u).
case: (predict_on_noisy_inputs _ _ _) => [[M_dx S_dx] C_dx].
by rewrite row_mx0 mul0mx trmx0 mulmx0 !addr0.
Qed.

(** X3. The joint covariance handed to the dynamics model is symmetric
    whenever the state covariance and the action covariance returned by
    the controller are. *)
Theorem joint_input_symmetric (self : PILCO) (m_x : mean) (s_x : cov) :
  symmetric s_x ->
  symmetric (compute_action (controller self) m_x s_x).1.2 ->
  symmetric (joint_input self m_x s_x).2.
Proof.
rewrite /joint_input /symmetric.
case: (compute_action _ _ _) => [[m_u s_u] c_xu] /= Hs Hu.
by rewrite -/(block_mx _ _ _ _) tr_block_mx trmxK Hs Hu.
Qed.

(** ** [predict] *)

Lemma predict_closed (self : PILCO) (m_x : mean) (s_x : cov) (n : Z) :
  (n < 2 ^ 31)%ZZ ->
  predict self m_x s_x n =
  ((belief_after self m_x s_x (Z.to_nat n)).1,
   (belief_after self m_x s_x (Z.to_nat n)).2,
   \sum_(0 <= i < Z.to_nat n) reward_after self m_x s_x i).
Proof.
by move=> Hn; rewrite /predict (predict_loop_closed self m_x s_x Hn).1.
Qed.

Lemma belief_after_add (self : PILCO) (m_x : mean) (s_x : cov) (a b : nat) :
  belief_after self m_x s_x (a + b) =
  belief_after self (belief_after self m_x s_x a).1
    (belief_after self m_x s_x a).2 b.
Proof.
by rewrite /belief_after addnC iterD -surjective_pairing.
Qed.

(** X4. Rollouts compose: a rollout over [a + b] steps is the rollout over
    [a] steps followed by the rollout over [b] steps from the belief
    reached, and the cumulative rewards add up. *)
Theorem predict_additive (self : PILCO) (m_x : mean) (s_x : cov) (a b : Z) :
  (0 <= a)%ZZ -> (0 <= b)%ZZ -> (a + b < 2 ^ 31)%ZZ ->
  predict self m_x s_x (a + b) =
  let: (m1, s1, r1) := predict self m_x s_x a in
  let: (m2, s2, r2) := predict self m1 s1 b in
  (m2, s2, r1 + r2).
Proof.
move=> Ha Hb Hab.
have Ha' : (a < 2 ^ 31)%ZZ by lia.
have Hb' : (b < 2 ^ 31)%ZZ by lia.
rewrite (predict_closed self m_x s_x Hab) (predict_closed self m_x s_x Ha').
rewrite (predict_closed self _ _ Hb') Z2Nat.inj_add // plusE.
set na := Z.to_nat a; set nb := Z.to_nat b.
rewrite -!belief_after_add; congr (_, _, _).
rewrite (@big_cat_nat _ _ _ na) ?leq_addr //=; congr (_ + _).
rewrite -{1}[na]add0n big_addn addKn.
apply: eq_bigr => i _.
by rewrite /reward_after -belief_after_add addnC.
Qed.

(** X5. A zero or negative horizon is a rollout of no step: the initial
    belief is returned with the reward [0]. *)
Theorem predict_nonpositive_horizon (self : PILCO) (m_x : mean) (s_x : cov)
    (n : Z) :
  (n <= 0)%ZZ -> predict self m_x s_x n = (m_x, s_x, 0).
Proof. by move=> Hn; have [] := predict_nonpos self m_x s_x Hn. Qed.

Lemma belief_after_fixed (self : PILCO) (m_x : mean) (s_x : cov) :
  propagate self m_x s_x = (m_x, s_x) ->
  forall k, belief_after self m_x s_x k = (m_x, s_x).
Proof.
move=> Hfix; elim=> [|k IH] //.
by rewrite belief_afterS Hfix.
Qed.

(** X6. When the dynamics model predicts no change (zero delta mean, zero
    delta covariance, zero input-output covariance), [propagate] returns
    the belief it was given and the rollout over [n] steps returns the
    initial belief with [n] times the reward of that belief. *)
Theorem predict_identity_model (self : PILCO) (m_x : mean) (s_x : cov)
    (n : Z) :
  (forall m s, predict_on_noisy_inputs (mgpr self) m s = (0, 0, 0)) ->
  (n < 2 ^ 31)%ZZ ->
  propagate self m_x s_x = (m_x, s_x) /\
  predict self m_x s_x n =
  (m_x, s_x, (compute_reward (reward self) m_x s_x).1 *+ Z.to_nat n).
Proof.
move=> Hmodel Hn.
have Hfix : propagate self m_x s_x = (m_x, s_x).
  rewrite propagate_joint; case: (joint_input _ _ _) => m s.
  by rewrite Hmodel trmx0 mulmx0 mul0mx !addr0 !add0r.
split=> //; rewrite (predict_closed self m_x s_x Hn).
rewrite !(belief_after_fixed Hfix); congr (_, _, _).
rewrite (eq_bigr (fun=> (compute_reward (reward self) m_x s_x).1)).
  by move=> i _; rewrite /reward_after (belief_after_fixed Hfix).
by rewrite sumr_const_nat subn0.
Qed.

(** ** The constructor *)

Lemma PILCO_init_optimizer X Y nip h c r om oS :
  optimizer (PILCO_init X Y nip h c r om oS) = None.
Proof. by rewrite /PILCO_init; case: om => [m|]; case: oS => [s|]. Qed.

Lemma PILCO_init_default_S_init X Y nip h c r om :
  S_init (PILCO_init X Y nip h c r om None) =
  diag_mx (map_mx (fun x => x * lit_0_1) (const_mx 1)).
Proof. by rewrite /PILCO_init; case: om. Qed.

(** X8. Without [m_init] or [S_init] the constructor's initial covariance
    is symmetric, and so is the covariance reached by the rollout of
    [compute_return] from it, when the dynamics model returns symmetric
    delta covariances. *)
Theorem PILCO_init_default_symmetric X Y nip h c r om :
  let self := PILCO_init X Y nip h c r om None in
  (forall m s, symmetric (predict_on_noisy_inputs (mgpr self) m s).1.2) ->
  symmetric (S_init self) /\
  symmetric (predict self (m_init self) (S_init self) (horizon self)).1.2.
Proof.
move=> self Hmodel.
have HS : symmetric (S_init self).
  by rewrite /symmetric /self PILCO_init_default_S_init tr_diag_mx.
split=> //.
move: (predict_loop_symmetric (m_init self) (horizon self) Hmodel HS).
by rewrite /predict; case: (predict_loop _ _ _ _) => [[[j m] s] rw].
Qed.

(** ** [optimize] *)

Lemma optimize_keeps_optimizer (self : PILCO) (maxiter : nat)
    (opt : Optimizer) :
  optimizer self = Some opt -> optimizer (optimize self maxiter) = Some opt.
Proof. by move=> Hopt; rewrite /optimize /optimize_policy /= Hopt. Qed.

Lemma optimize_sets_optimizer (self : PILCO) (maxiter : nat) :
  exists opt, optimizer (optimize self maxiter) = Some opt.
Proof.
case Hopt: (optimizer self) => [opt|].
  by exists opt; apply: optimize_keeps_optimizer.
rewrite /optimize /optimize_policy /ScipyOptimizer_minimize /= Hopt.
by case: (lbfgsb_first _ _ _) => c opt; exists opt.
Qed.

(** X9. Once an optimiser handle exists, [optimize] keeps that handle and
    makes no use of its [maxiter] argument: two calls that differ only in
    [maxiter] give the same object. *)
Theorem optimize_resume_ignores_maxiter (self : PILCO) (opt : Optimizer)
    (maxiter1 maxiter2 : nat) :
  optimizer self = Some opt ->
  optimize self maxiter1 = optimize self maxiter2 /\
  optimizer (optimize self maxiter1) = Some opt.
Proof.
move=> Hopt; split; last exact: optimize_keeps_optimizer.
by rewrite /optimize /optimize_policy /= Hopt.
Qed.

(** ** [restart_controller] *)

Lemma restart_trial_no_optimizer (st : restart_state) :
  optimizer (live st) = None -> restart_trial st = Raise AttributeError.
Proof.
move=> Hopt; rewrite /restart_trial.
have := perturb_phase_optimizer (live st) (gen st).
case: (perturb_phase _ _) => [[self2 g2] log2] /=.
by rewrite Hopt /reoptimize => ->.
Qed.

(** X10. On an object fresh from the constructor (no [optimize] call yet),
    [restart_controller] with no restart returns at once, the object and
    the generator untouched and nothing printed; with one restart or more
    it raises [AttributeError]. *)
Theorem restart_controller_before_optimize X Y nip h c r om oS
    (restarts : nat) (g : rng) :
  let self := PILCO_init X Y nip h c r om oS in
  restart_controller self restarts g =
  if restarts is 0%N then
    Ok (mkRestart self (read_values self) (compute_return self) g [::])
  else Raise AttributeError.
Proof.
move=> self; rewrite /restart_controller; case: restarts => [|k] //=.
rewrite restart_trial_no_optimizer //.
exact: PILCO_init_optimizer.
Qed.

Lemma candidate_params (opt : Optimizer) (st : restart_state) :
  mgpr (candidate opt st) = mgpr (live st) /\
  reward (candidate opt st) = reward (live st).
Proof.
rewrite /candidate /perturb_phase; case: (rand _) => select g1.
by case: (foldl _ _ _) => [[ms g2] log].
Qed.

(** One trial from loop variables that satisfy the invariant: it returns,
    keeps the invariant and the handle, and does not lower [old_reward]. *)
Lemma restart_trial_total (opt : Optimizer) (st : restart_state) :
  optimizer (live st) = Some opt -> restart_inv st ->
  exists st',
    [/\ restart_trial st = Ok st', optimizer (live st') = Some opt,
        restart_inv st' & old_reward st 0 0 <= old_reward st' 0 0].
Proof.
move=> Hopt Hinv; have [Hv Hr] := Hinv.
have [H1 H2 H3 H4] := candidate_frame opt st.
rewrite (restart_trialE Hopt).
have Hlive : assign (values st) (candidate opt st) = live st.
  by rewrite Hv assign_read_values.
case Hgt: (gt_scalar _ _); eexists; split; try reflexivity;
  rewrite /restart_inv /= ?Hlive //.
- by rewrite H4.
- by move: Hgt; rewrite /gt_scalar leNgt => ->.
Qed.

Lemma restart_loop_total (opt : Optimizer) (k : nat) (st : restart_state) :
  optimizer (live st) = Some opt -> restart_inv st ->
  exists st',
    [/\ restart_loop k st = Ok st', optimizer (live st') = Some opt,
        restart_inv st' & old_reward st 0 0 <= old_reward st' 0 0].
Proof.
elim: k st => [|k IH] st Hopt Hinv /=; first by exists st; split.
have [st1 [-> Hopt1 Hinv1 Hle1]] := restart_trial_total Hopt Hinv.
have [st2 [Hloop Hopt2 Hinv2 Hle2]] := IH st1 Hopt1 Hinv1.
by exists st2; split=> //; apply: le_trans Hle1 Hle2.
Qed.

(** X11. With an optimiser handle set, [restart_controller] returns for
    every number of restarts, and the return of the object it leaves is
    never below the return of the object it was given; [old_reward] ends
    as the return of the live object and the handle is kept. *)
Theorem restart_controller_never_worse (self : PILCO) (opt : Optimizer)
    (restarts : nat) (g : rng) :
  optimizer self = Some opt ->
  exists st,
    [/\ restart_controller self restarts g = Ok st,
        compute_return self 0 0 <= compute_return (live st) 0 0,
        old_reward st = compute_return (live st) &
        optimizer (live st) = Some opt].
Proof.
move=> Hopt.
have Hinv : restart_inv (restart_init self g) by [].
have [st [Hloop Hopt' [Hv Hr] Hle]] :=
  restart_loop_total restarts (st := restart_init self g) Hopt Hinv.
by exists st; split=> //; rewrite -Hr.
Qed.

(** X12. In exact, totally ordered arithmetic (no NaN reward) and with
    collaborators that raise nothing themselves: [optimize] always leaves
    an optimiser handle, so [restart_controller] called after it returns
    for every number of restarts (the [AttributeError] of an unset handle
    cannot occur), and the return of the object it leaves is at least that
    of the optimised object. *)
Theorem restart_controller_after_optimize (self : PILCO) (maxiter : nat)
    (restarts : nat) (g : rng) :
  exists st,
    restart_controller (optimize self maxiter) restarts g = Ok st /\
    compute_return (optimize self maxiter) 0 0 <=
    compute_return (live st) 0 0.
Proof.
have [opt Hopt] := optimize_sets_optimizer self maxiter.
have Hinv : restart_inv (restart_init (optimize self maxiter) g) by [].
have [st [Hloop _ [Hv Hr] Hle]] :=
  restart_loop_total restarts
    (st := restart_init (optimize self maxiter) g) Hopt Hinv.
by exists st; split=> //; rewrite -Hr.
Qed.

Lemma size_apply_to_all (self : PILCO) (st : strategy) (ms : seq GPModel)
    (g : rng) :
  size (apply_to_all self st ms g).1 = size ms.
Proof.
elim: ms g => [|m ms IH] g //=.
case: (apply_strategy self st m g) => m' g'.
by move: (IH g'); case: (apply_to_all self st ms g') => ms' g'' /= ->.
Qed.

(** X13. The perturbation of a trial touches the sub-models of the
    controller only: their number, the other parameters of the controller,
    the dynamics model, the reward, the horizon, the initial belief and the
    optimiser handle are as before. *)
Theorem perturb_phase_frame (self : PILCO) (g : rng) :
  let self' := (perturb_phase self g).1.1 in
  [/\ size (models (controller self')) = size (models (controller self)),
      ctrl_params (controller self') = ctrl_params (controller self),
      (mgpr self', reward self', optimizer self') =
      (mgpr self, reward self, optimizer self) &
      (horizon self', m_init self', S_init self') =
      (horizon self, m_init self, S_init self)].
Proof.
rewrite /perturb_phase; case: (rand g) => select g1 /=.
have [st [Hst _]] := strategy_chosen_total select.
rewrite (foldl_perturb_model self Hst) /=.
by split=> //; rewrite size_apply_to_all.
Qed.

Lemma apply_to_all_forgets (self1 self2 : PILCO) (st : strategy)
    (ms1 ms2 : seq GPModel) (g : rng) :
  st <> StrategyC -> m_init self1 = m_init self2 -> size ms1 = size ms2 ->
  apply_to_all self1 st ms1 g = apply_to_all self2 st ms2 g.
Proof.
move=> Hst Hm.
have Happ m1 m2 g0 :
    apply_strategy self1 st m1 g0 = apply_strategy self2 st m2 g0.
  case: st Hst => [||] Hst;
    [by [] | by rewrite /= /reinitialise_near_m_init Hm | by case: Hst].
elim: ms1 ms2 g => [|m1 ms1 IH] [|m2 ms2] g //= [Hsz].
rewrite (Happ m1 m2 g).
case: (apply_strategy self2 st m2 g) => m' g'.
by rewrite (IH ms2 g' Hsz).
Qed.

Lemma lit_0_67_not_chosen_C (draw : R) :
  draw < lit_0_67 -> ~~ strategy_chosen draw StrategyC.
Proof. by rewrite /= -ltNge. Qed.

(** X14. A reinitialising restart (a draw below [0.67], strategies A and
    B) forgets the current sub-models: two objects with the same initial
    mean and the same number of sub-models get the same new sub-models,
    leave the generator in the same state and print the same messages. *)
Theorem perturb_phase_reinitialise_forgets (self1 self2 : PILCO) (g : rng) :
  (rand g).1 < lit_0_67 ->
  m_init self1 = m_init self2 ->
  size (models (controller self1)) = size (models (controller self2)) ->
  [/\ models (controller (perturb_phase self1 g).1.1) =
      models (controller (perturb_phase self2 g).1.1),
      (perturb_phase self1 g).1.2 = (perturb_phase self2 g).1.2 &
      (perturb_phase self1 g).2 = (perturb_phase self2 g).2].
Proof.
rewrite /perturb_phase; case: (rand g) => select g1 /= Hlt Hm Hsz.
have [st [Hst _]] := strategy_chosen_total select.
have HnC : st <> StrategyC.
  by move=> E; move: Hst (lit_0_67_not_chosen_C Hlt); rewrite E => ->.
rewrite !(foldl_perturb_model _ Hst) /= Hsz.
by rewrite (apply_to_all_forgets g1 HnC Hm Hsz).
Qed.

End Pilco.

(** * A small instance

    One state dimension, one control dimension, rational scalars.  The
    policy answers with a zero action and the matrix [c_xu = 1]; the model
    predicts the delta mean [1] with zero covariances; the reward of a
    belief is its mean. *)

Definition toy_Controller : Type := Controller rat 1 1 1 unit.

Definition toy_PILCO : Type := PILCO rat 1 unit unit 1 1 unit unit.

Definition toy_model (_ : unit) (m : 'rV[rat]_(1 + 1)) (s : 'M[rat]_(1 + 1)) :
    'rV[rat]_1 * 'M[rat]_1 * 'M[rat]_(1 + 1, 1) :=
  (const_mx 1, 0, 0).

Definition toy_reward (_ : unit) (m : 'rV[rat]_1) (s : 'M[rat]_1) :
    'M[rat]_1 * 'M[rat]_1 :=
  (m, 0).

Definition toy_policy (_ : toy_Controller) (m : 'rV[rat]_1) (s : 'M[rat]_1) :
    'rV[rat]_1 * 'M[rat]_1 * 'M[rat]_(1, 1) :=
  (0, 0, 1%:M).

Definition toy_controller : toy_Controller := mkController [::] tt.

(** The generator is a counter; every draw is [0]. *)
Definition toy_rand (g : nat) : rat * nat := (0, g.+1).

Definition toy_normal (m n : nat) (g : nat) : 'M[rat]_(m, n) * nat :=
  (0, g.+1).

(** A search that leaves the policy where it is. *)
Definition toy_resume (_ : unit) (_ : toy_Controller -> 'M[rat]_1)
    (c : toy_Controller) : toy_Controller := c.

Definition toy_MGPR_init (_ : 'M[rat]_(1 + 0, 1 + 1)) (_ : 'M[rat]_(1 + 0, 1)) :
    unit := tt.

Definition toy_SMGPR_init (_ : 'M[rat]_(1 + 0, 1 + 1))
    (_ : 'M[rat]_(1 + 0, 1)) (_ : nat) : unit := tt.

(** The object built by the constructor from a data set of one zero row,
    a given horizon and defaults otherwise. *)
Definition toy_init (h : Z) : toy_PILCO :=
  PILCO_init unit toy_MGPR_init toy_SMGPR_init toy_controller tt 0 0 None h
    None None None None.

(** An object with initial belief (mean [0], covariance [2]) that has been
    optimised once. *)
Definition toy_self : toy_PILCO :=
  mkPILCO tt 1%ZZ toy_controller tt 0 2%:M (Some tt).

Lemma rat_1_neq_0 : (1 : rat) <> 0.
Proof. by move/eqP; rewrite oner_eq0. Qed.

Lemma rat_2_neq_1 : (2%:R : rat) <> 1.
Proof. by move/eqP; rewrite (eqr_nat rat 2 1). Qed.

Lemma toy_propagate (m : 'rV[rat]_1) (s : 'M[rat]_1) :
  propagate toy_model toy_policy toy_self m s = (const_mx 1 + m, s).
Proof.
rewrite /propagate /toy_policy /toy_model.
by rewrite mulmx0 trmx0 mul0mx !addr0 add0r.
Qed.

(** C1, counterexample. In the instance, for horizon [1] from the mean [0],
    the rollout returns the reward of the initial belief, [0], where the
    sum of the post-step rewards is [1]. *)
Lemma predict_not_post_step :
  predict toy_model toy_reward toy_policy toy_self 0 2%:M 1 <>
  rollout_post_step toy_model toy_reward toy_policy toy_self 0 2%:M
    (Z.to_nat 1).
Proof.
have H31 : (1 < 2 ^ 31)%ZZ by [].
rewrite /predict.
have [-> _] :=
  predict_loop_closed toy_model toy_reward toy_policy toy_self 0 2%:M H31.
have -> : Z.to_nat 1 = 1%N by [].
rewrite /rollout_post_step !big_nat1 /reward_after !belief_afterS.
rewrite toy_propagate /belief_after /toy_reward /= addr0.
case=> /matrixP /(_ 0 0); rewrite !mxE.
by move/esym; apply: rat_1_neq_0.
Qed.

(** C1, witness: horizon [1] in the instance. *)
Lemma predict_rewards_pre_step_witness :
  (1 <= 1 < 2 ^ 31)%ZZ /\
  predict toy_model toy_reward toy_policy toy_self 0 2%:M 1 =
  ((belief_after toy_model toy_policy toy_self 0 2%:M (Z.to_nat 1)).1,
   (belief_after toy_model toy_policy toy_self 0 2%:M (Z.to_nat 1)).2,
   \sum_(0 <= k < Z.to_nat 1)
      reward_after toy_model toy_reward toy_policy toy_self 0 2%:M k).
Proof.
have H : (1 <= 1 < 2 ^ 31)%ZZ by split.
split; first exact: H.
exact: (proj2 (proj2 (predict_rewards_pre_step toy_model toy_reward
                        toy_policy toy_self 0 2%:M H))).
Defined.

(** C3, counterexample. In the instance the state covariance is [2] and
    the policy returns [c_xu = 1]: the off-diagonal block built by the code
    is [2], not the returned [1]. *)
Lemma joint_input_not_spec :
  joint_input toy_policy toy_self 0 2%:M <>
  joint_input_spec toy_policy toy_self 0 2%:M.
Proof.
rewrite /joint_input /joint_input_spec /toy_policy /= => -[].
move=> /matrixP /(_ (lshift 1 0) (rshift 1 0)).
rewrite -/(block_mx _ _ _ _) !block_mxEur mulmx1 !mxE /= mulr1n.
exact: rat_2_neq_1.
Qed.

(** C7, witness: the instance, whose model returns the zero (symmetric)
    delta covariance, from the symmetric state covariance [2]. *)
Lemma propagate_symmetric_witness :
  symmetric (propagate toy_model toy_policy toy_self 0 2%:M).2 /\
  (forall k, symmetric (belief_after toy_model toy_policy toy_self 0 2%:M k).2) /\
  (forall n,
     symmetric
       (predict toy_model toy_reward toy_policy toy_self 0 2%:M n).1.2).
Proof.
apply: (propagate_symmetric toy_reward toy_policy (self := toy_self) 0).
  by move=> m s; rewrite /symmetric /toy_model /= trmx0.
by rewrite /symmetric tr_scalar_mx.
Defined.

(** C4, witness: the first trial of the instance. *)
Lemma restart_trial_accept_reject_witness :
  let st := restart_init toy_model toy_reward toy_policy toy_self 0%N in
  let cand :=
    candidate toy_model toy_reward toy_policy toy_rand toy_normal toy_resume
      tt st in
  let new_reward := compute_return toy_model toy_reward toy_policy cand in
  exists st',
    restart_trial toy_model toy_reward toy_policy toy_rand toy_normal
      toy_resume st = Ok st' /\
    if gt_scalar (old_reward st) new_reward then
      [/\ live st' = live st, read_values (live st') = values st,
          old_reward st' = old_reward st &
          last (PrintVal 0) (belast (PrintVal 0) (printed st')) =
          PrintStr "Restoring controller values"]
    else
      [/\ live st' = cand, values st' = read_values cand,
          old_reward st' = new_reward &
          last (PrintVal 0) (printed st') = PrintStr "Successful restart"].
Proof.
exact: (@restart_trial_accept_reject _ _ _ _ _ toy_model toy_reward _ _ _
          toy_policy _ _ toy_rand toy_normal toy_resume toy_self 0%N 0%N
          _ tt (erefl _) (erefl _)).
Defined.

(** C9, counterexample. The constructor returns an object for the horizons
    [0] and [-1]; the object carries the invalid horizon, and its rollout
    is evaluated (to the reward [0]) without any rejection. *)
Lemma PILCO_init_accepts_invalid_horizon :
  ~ valid_horizon (horizon (toy_init 0)) /\
  ~ valid_horizon (horizon (toy_init (-1))) /\
  compute_return toy_model toy_reward toy_policy (toy_init (-1)) = 0.
Proof.
rewrite /toy_init !PILCO_init_horizon /valid_horizon.
split; first by lia.
split; first by lia.
have H : (-1 <= 0)%ZZ by [].
rewrite /compute_return PILCO_init_horizon.
by have [-> _] := predict_nonpos toy_model toy_reward toy_policy
  (toy_init (-1)) (m_init (toy_init (-1))) (S_init (toy_init (-1))) H.
Qed.

(** C9, witness: the horizon [-1] in the instance. *)
Lemma PILCO_init_keeps_horizon_witness :
  (-1 <= 0)%ZZ /\
  horizon (toy_init (-1)) = (-1)%ZZ /\
  predict toy_model toy_reward toy_policy (toy_init (-1))
    (m_init (toy_init (-1))) (S_init (toy_init (-1)))
    (horizon (toy_init (-1))) =
  (m_init (toy_init (-1)), S_init (toy_init (-1)), 0) /\
  compute_return toy_model toy_reward toy_policy (toy_init (-1)) = 0.
Proof.
have H : (-1 <= 0)%ZZ by [].
have T := PILCO_init_keeps_horizon toy_model toy_reward toy_policy unit
  toy_MGPR_init toy_SMGPR_init toy_controller tt 0 0 None (-1)%ZZ
  None None None None.
split; first exact: H.
split; first exact: (proj1 T).
by have [_ Hp Hr] := proj2 T H.
Defined.

(** ** The instance, continued *)

(** A dynamics model that predicts no change. *)
Definition toy_zero_model (_ : unit) (m : 'rV[rat]_(1 + 1))
    (s : 'M[rat]_(1 + 1)) :
    'rV[rat]_1 * 'M[rat]_1 * 'M[rat]_(1 + 1, 1) :=
  (0, 0, 0).

Definition toy_first (_ : nat) (_ : toy_Controller -> 'M[rat]_1)
    (c : toy_Controller) : toy_Controller * unit := (c, tt).

Definition toy_mgpr_optimize (u : unit) : unit := u.

(** An optimised object whose controller has one sub-model, all of whose
    parameters are [x]. *)
Definition toy_self_with (x : rat) : toy_PILCO :=
  mkPILCO tt 1%ZZ
    (mkController [:: mkGPModel (const_mx x) (const_mx x) (const_mx x)] tt)
    tt 0 2%:M (Some tt).

(** X3, witness: the instance at the state covariance [2]. *)
Lemma joint_input_symmetric_witness :
  symmetric (joint_input toy_policy toy_self 0 2%:M).2.
Proof.
apply: (joint_input_symmetric (compute_action := toy_policy)
          (self := toy_self) (m_x := 0) (s_x := 2%:M)).
  by rewrite /symmetric tr_scalar_mx.
by rewrite /symmetric /toy_policy /= trmx0.
Defined.

(** X4, witness: one step followed by one step in the instance. *)
Lemma predict_additive_witness :
  predict toy_model toy_reward toy_policy toy_self 0 2%:M (1 + 1) =
  let: (m1, s1, r1) :=
    predict toy_model toy_reward toy_policy toy_self 0 2%:M 1 in
  let: (m2, s2, r2) :=
    predict toy_model toy_reward toy_policy toy_self m1 s1 1 in
  (m2, s2, r1 + r2).
Proof.
have H1 : (0 <= 1)%ZZ by [].
have H2 : (1 + 1 < 2 ^ 31)%ZZ by [].
exact: (predict_additive toy_model toy_reward toy_policy toy_self 0 2%:M
          H1 H1 H2).
Defined.

(** X5, witness: the horizon [-3] in the instance. *)
Lemma predict_nonpositive_horizon_witness :
  predict toy_model toy_reward toy_policy toy_self 0 2%:M (-3) =
  (0, 2%:M, 0).
Proof.
have H : (-3 <= 0)%ZZ by [].
exact: (predict_nonpositive_horizon toy_model toy_reward toy_policy toy_self
          0 2%:M H).
Defined.

(** X6, witness: the model that predicts no change, three steps. *)
Lemma predict_identity_model_witness :
  propagate toy_zero_model toy_policy toy_self 0 2%:M = (0, 2%:M) /\
  predict toy_zero_model toy_reward toy_policy toy_self 0 2%:M 3 =
  (0, 2%:M, (toy_reward tt 0 2%:M).1 *+ Z.to_nat 3).
Proof.
have H : (3 < 2 ^ 31)%ZZ by [].
exact: (predict_identity_model (predict_on_noisy_inputs := toy_zero_model)
          toy_reward toy_policy (self := toy_self) 0 2%:M
          (fun _ _ => erefl) H).
Defined.

(** X8, witness: the object built by the constructor with horizon [2]. *)
Lemma PILCO_init_default_symmetric_witness :
  symmetric (S_init (toy_init 2)) /\
  symmetric
    (predict toy_model toy_reward toy_policy (toy_init 2)
       (m_init (toy_init 2)) (S_init (toy_init 2))
       (horizon (toy_init 2))).1.2.
Proof.
apply: (PILCO_init_default_symmetric (predict_on_noisy_inputs := toy_model)
          toy_reward toy_policy).
by move=> m s; rewrite /symmetric /toy_model /= trmx0.
Defined.

(** X9, witness: the optimised object of the instance. *)
Lemma optimize_resume_ignores_maxiter_witness :
  optimize toy_model toy_reward toy_policy toy_mgpr_optimize toy_first
    toy_resume toy_self 50 =
  optimize toy_model toy_reward toy_policy toy_mgpr_optimize toy_first
    toy_resume toy_self 10 /\
  optimizer
    (optimize toy_model toy_reward toy_policy toy_mgpr_optimize toy_first
       toy_resume toy_self 50) = Some tt.
Proof.
exact: (optimize_resume_ignores_maxiter toy_model toy_reward toy_policy
          toy_mgpr_optimize toy_first toy_resume (self := toy_self)
          (opt := tt) 50 10 (erefl _)).
Defined.

(** X11, witness: two restarts of the optimised object of the instance. *)
Lemma restart_controller_never_worse_witness :
  exists st,
    [/\ restart_controller toy_model toy_reward toy_policy toy_rand
          toy_normal toy_resume toy_self 2 0%N = Ok st,
        compute_return toy_model toy_reward toy_policy toy_self 0 0 <=
        compute_return toy_model toy_reward toy_policy (live st) 0 0,
        old_reward st =
        compute_return toy_model toy_reward toy_policy (live st) &
        optimizer (live st) = Some tt].
Proof.
exact: (restart_controller_never_worse toy_model toy_reward toy_policy
          toy_rand toy_normal toy_resume (self := toy_self) (opt := tt)
          2 0%N (erefl _)).
Defined.

Lemma toy_draw_below_0_67 : (toy_rand 0).1 < lit_0_67 rat.
Proof. by rewrite /lit_0_67 /= divr_gt0 // ltr0n. Qed.

(** X14, witness: two objects of the instance whose single sub-model
    holds [0] in one and [1] in the other; the draw is [0]. *)
Lemma perturb_phase_reinitialise_forgets_witness :
  [/\ models (controller
        (perturb_phase toy_rand toy_normal (toy_self_with 0) 0%N).1.1) =
      models (controller
        (perturb_phase toy_rand toy_normal (toy_self_with 1) 0%N).1.1),
      (perturb_phase toy_rand toy_normal (toy_self_with 0) 0%N).1.2 =
      (perturb_phase toy_rand toy_normal (toy_self_with 1) 0%N).1.2 &
      (perturb_phase toy_rand toy_normal (toy_self_with 0) 0%N).2 =
      (perturb_phase toy_rand toy_normal (toy_self_with 1) 0%N).2].
Proof.
exact: (perturb_phase_reinitialise_forgets (rand := toy_rand) toy_normal
          (self1 := toy_self_with 0) (self2 := toy_self_with 1) (g := 0%N)
          toy_draw_below_0_67 (erefl _) (erefl _)).
Defined.
